(** * corkboard: the tweet synthesizer of [create.py]

    A shallow embedding of [src/create.py] and the properties its
    specification states about it.

    Conventions.
    - A Python [str] is a [string] holding its UTF-8 encoding, which is what
      the two files, both opened with the utf-8 encoding, contain.
    - A Python [int] is a [Z]; a [float] is a binary64 [float].
    - Code that raises returns [Raise e]; code that reads or changes the file
      system, the console, the clock or a random source passes a [World].
    - Library functions the program calls but does not define ([json.loads],
      [json.dumps], [str], [str.strip], the Faker providers) are parameters
      of the section that holds the program. *)

From Stdlib Require Import ZArith String Ascii List Lia DecimalString.
From Stdlib Require Import Floats.PrimFloat.
From stdpp Require Import base option list strings gmap.

Set Warnings "-register-all".
Open Scope string_scope.
Open Scope Z_scope.

(** ** Python values *)

(** What [json.loads] can return and [json.dumps] can take.  A [dict] lists
    its items in insertion order, each key once. *)
Inductive pyval :=
| PNone
| PBool (b : bool)
| PInt (z : Z)
| PFloat (f : float)
| PStr (s : string)
| PList (l : list pyval)
| PDict (d : list (string * pyval)).

Abbreviation dict := (list (string * pyval)).

(** [k in d] *)
Fixpoint dict_contains (k : string) (d : dict) : bool :=
  match d with
  | [] => false
  | (k', _) :: d' => if String.eqb k k' then true else dict_contains k d'
  end.

(** [d.get(k)] *)
Fixpoint dict_get (k : string) (d : dict) : option pyval :=
  match d with
  | [] => None
  | (k', v) :: d' => if String.eqb k k' then Some v else dict_get k d'
  end.

(** [d[k] = v]: the value of an existing key is replaced where it stands, a
    new key goes to the end. *)
Fixpoint dict_set (k : string) (v : pyval) (d : dict) : dict :=
  match d with
  | [] => [(k, v)]
  | (k', v') :: d' =>
      if String.eqb k k' then (k', v) :: d' else (k', v') :: dict_set k v d'
  end.

Definition dict_keys (d : dict) : list string := map fst d.
Definition dict_values (d : dict) : list pyval := map snd d.

(** ** Exceptions, the world, and the monad of effects *)

Inductive exn :=
| JSONDecodeError
| KeyError (k : string)
| IndexError
| ValueError (msg : string)
| FileNotFoundError (path : string).

Inductive result (A : Type) :=
| Ok (a : A)
| Raise (e : exn).
Arguments Ok {A} a.
Arguments Raise {A} e.

(** What the program does to the file system and the console, oldest first. *)
Inductive event :=
| EOpen (path mode : string)
| EWrite (path data : string)
| EClose (path : string)
| EPrint (line : string).

(** [files] maps a path to the text of the file.  [oracle] holds the outcomes
    of everything the program cannot decide: the draws of the random sources
    and the time that passes between two readings of the clock; [asked]
    counts how many of them were consumed.  [now_us] is the last reading of
    the wall clock, in microseconds since the epoch, the resolution of
    [datetime]. *)
Record World := mkWorld {
  files : gmap string string;
  trace : list event;
  oracle : nat -> N;
  asked : nat;
  now_us : Z
}.

Definition M (A : Type) : Type := World -> result A * World.

Definition ret {A} (a : A) : M A := fun w => (Ok a, w).
Definition raise {A} (e : exn) : M A := fun w => (Raise e, w).
Definition bind {A B} (m : M A) (k : A -> M B) : M B :=
  fun w => match m w with
           | (Ok a, w') => k a w'
           | (Raise e, w') => (Raise e, w')
           end.

Notation "x <- m ;; k" := (bind m (fun x => k))
  (at level 100, m at next level, right associativity).
Notation "m ;;; k" := (bind m (fun _ => k))
  (at level 100, right associativity).

(** [try: body except JSONDecodeError: handler]; any other exception goes on
    to the caller. *)
Definition try_except_JSONDecodeError {A} (body handler : M A) : M A :=
  fun w => match body w with
           | (Raise JSONDecodeError, w') => handler w'
           | r => r
           end.

(** [for x in xs: s = body(x, s)], where [s] stands for the local variables
    the body assigns. *)
Fixpoint for_each {A S} (xs : list A) (body : A -> S -> M S) (s : S) : M S :=
  match xs with
  | [] => ret s
  | x :: xs' => s' <- body x s ;; for_each xs' body s'
  end.

(** [range(n)]; empty when [n <= 0]. *)
Definition py_range (n : Z) : list Z := map Z.of_nat (seq 0 (Z.to_nat n)).

Definition log (e : event) (w : World) : World :=
  mkWorld (files w) (trace w ++ [e])%list (oracle w) (asked w) (now_us w).

Definition set_file (path text : string) (w : World) : World :=
  mkWorld (<[path := text]> (files w)) (trace w) (oracle w) (asked w) (now_us w).

(** The next outcome the environment decides. *)
Definition draw : M N :=
  fun w => (Ok (oracle w (asked w)),
            mkWorld (files w) (trace w) (oracle w) (S (asked w)) (now_us w)).

(** ** Files and console *)

(** The lines a text file yields when iterated, each with its line end.  In
    text mode a carriage return, alone or before a line feed, reads as a line
    feed. *)
Fixpoint text_lines_from (cur : string) (s : string) : list string :=
  match s with
  | EmptyString => if String.eqb cur "" then [] else [cur]
  | String c s' =>
      if Ascii.eqb c "010"%char then
        (cur +:+ String "010"%char "") :: text_lines_from "" s'
      else if Ascii.eqb c "013"%char then
        match s' with
        | String c' s'' =>
            if Ascii.eqb c' "010"%char
            then (cur +:+ String "010"%char "") :: text_lines_from "" s''
            else (cur +:+ String "010"%char "") :: text_lines_from "" s'
        | EmptyString => [cur +:+ String "010"%char ""]
        end
      else text_lines_from (cur +:+ String c "") s'
  end.

Definition text_lines (text : string) : list string := text_lines_from "" text.

Definition LF : string := String "010"%char "".

(** A file handle is the path it was opened on. *)
Definition open_read (path : string) : M (list string) :=
  fun w => match files w !! path with
           | Some text => (Ok (text_lines text), log (EOpen path "r") w)
           | None => (Raise (FileNotFoundError path), w)
           end.

(** Mode [w] creates the file, or empties the one that is there. *)
Definition open_write (path : string) : M string :=
  fun w => (Ok path, log (EOpen path "w") (set_file path "" w)).

Definition file_write (f data : string) : M unit :=
  fun w => (Ok tt,
            log (EWrite f data)
                (set_file f (default "" (files w !! f) +:+ data) w)).

(** [with opening as f: body]: the file is closed however the body ends. *)
Definition with_open {H A} (path : string) (opening : M H) (body : H -> M A)
  : M A :=
  fun w => match opening w with
           | (Ok f, w1) => let '(r, w2) := body f w1 in (r, log (EClose path) w2)
           | (Raise e, w1) => (Raise e, w1)
           end.

Definition print (line : string) : M unit :=
  fun w => (Ok tt, log (EPrint line) w).

(** [str(n)] for an [int]. *)
Definition str_of_int (n : Z) : string := NilZero.string_of_int (Z.to_int n).

(** ** Random sources, clock, identifiers *)

(** Modelled from the spec: [random.randint(a, b)] draws an integer of
    [a, b], both ends included; the standard library refuses an empty range
    with a [ValueError]. *)
Definition randint (a b : Z) : M Z :=
  if b <? a then raise (ValueError "empty range for randrange()")
  else n <- draw ;; ret (a + Z.of_N n mod (b - a + 1)).

(** Modelled from the spec: [random.choice(seq)] picks one element of the
    sequence; the standard library raises [IndexError] on an empty one. *)
Definition random_choice {A} (seq : list A) : M A :=
  match seq with
  | [] => raise IndexError
  | x :: _ => n <- draw ;; ret (nth (N.to_nat n mod length seq)%nat seq x)
  end.

(** Modelled from the spec: [datetime.now()] reads the wall clock.  Between
    two readings a time the program does not control passes; the clock does
    not run backwards.  A [datetime] is the instant it denotes, counted in
    microseconds since the epoch. *)
Definition datetime_now : M Z :=
  d <- draw ;;
  fun w => let t := now_us w + Z.of_N d in
           (Ok t, mkWorld (files w) (trace w) (oracle w) (asked w) t).

(** [timedelta(days=d, seconds=s)], in microseconds. *)
Definition timedelta (days seconds : Z) : Z :=
  (days * 86400 + seconds) * 1000000.

(** [int(td.total_seconds())] and [int(dt.timestamp() * 1000)].  [int]
    truncates toward zero.  The binary64 roundings of the two float results
    are not modelled: both are taken as the exact quotient. *)
Definition int_total_seconds (td : Z) : Z := Z.quot td 1000000.
Definition int_timestamp_ms (dt : Z) : Z := Z.quot dt 1000.

(** Modelled from the spec: the URL-safe alphabet of the [nanoid] package,
    64 symbols. *)
Definition nanoid_alphabet : string :=
  "_-0123456789abcdefghijklmnopqrstuvwxyzABCDEFGHIJKLMNOPQRSTUVWXYZ".

(** Modelled from the spec: the symbol a random byte stands for, its low
    six bits indexing the alphabet. *)
Definition nanoid_symbol (n : N) : ascii :=
  match String.get (N.to_nat (N.land n 63)) nanoid_alphabet with
  | Some c => c
  | None => "_"%char
  end.

(** Modelled from the spec: [size] symbols, one random byte for each. *)
Fixpoint nanoid_symbols (size : nat) : M string :=
  match size with
  | O => ret ""
  | S k => n <- draw ;; rest <- nanoid_symbols k ;;
           ret (String (nanoid_symbol n) rest)
  end.

(** Modelled from the spec: [nanoid.generate(size=n)] is a random identifier
    of fixed length [n] over a URL-safe alphabet. *)
Definition nanoid (size : Z) : M string := nanoid_symbols (Z.to_nat size).

(** ** The program *)

Definition NUM_MESSAGES : Z := 100.

Definition REACTION_EMOJIS : list string :=
  ["👍"; "❤️"; "😂"; "😮"; "😢"; "😡"; "🔥"; "🚀"; "👏"; "🎉"].

Section Program.

(** [json.loads]: [None] stands for raising [json.JSONDecodeError]. *)
Variable json_loads : string -> option pyval.
(** [json.dumps(obj, ensure_ascii=b)], written [json_dumps b obj]. *)
Variable json_dumps : bool -> pyval -> string.
(** [str(obj)] and [s.strip()]. *)
Variable py_str : pyval -> string.
Variable str_strip : string -> string.
(** Modelled from the spec: the [name] and [user_name] providers of the
    shared [Faker] instance synthesize a full name and a username out of
    a random draw. *)
Variable fake_name : N -> string.
Variable fake_user_name : N -> string.

Definition json_loads_m (s : string) : M pyval :=
  match json_loads s with
  | Some v => ret v
  | None => raise JSONDecodeError
  end.

(** [data[k]] *)
Definition subscript (data : pyval) (k : string) : M pyval :=
  match data with
  | PDict d => match dict_get k d with
               | Some v => ret v
               | None => raise (KeyError k)
               end
  | _ => raise (KeyError k)
  end.

(** [isinstance(data, dict) and k in data] *)
Definition is_dict_with (k : string) (data : pyval) : bool :=
  match data with
  | PDict d => dict_contains k d
  | _ => false
  end.

(** The body of the loop of [load_comments], for one line. *)
Definition load_comments_line (line : string) (comments : list pyval)
  : M (list pyval) :=
  try_except_JSONDecodeError
    (data <- json_loads_m (str_strip line) ;;
     if is_dict_with "comment" data
     then v <- subscript data "comment" ;; ret (comments ++ [v])%list
     else ret (comments ++ [PStr (py_str data)])%list)
    (ret comments).

Definition load_comments (filepath : string) : M (list pyval) :=
  with_open filepath (open_read filepath)
    (fun f => for_each f load_comments_line []).

(** [{emoji: random.randint(0, 20) for emoji in REACTION_EMOJIS}] *)
Definition reactions_comprehension : M dict :=
  for_each REACTION_EMOJIS
    (fun emoji d => n <- randint 0 20 ;; ret (dict_set emoji (PInt n) d))
    [].

(** One pass of the loop of [generate_tweets] up to the finished [tweet]
    object. *)
Definition make_tweet (comments : list pyval) : M pyval :=
  nm <- draw ;;
  let full_name := fake_name nm in
  un <- draw ;;
  let username := fake_user_name un in
  let handle := "@" +:+ username in
  content <- random_choice comments ;;
  now1 <- datetime_now ;;
  let thirty_days_ago := now1 - timedelta 30 0 in
  now2 <- datetime_now ;;
  offset <- randint 0 (int_total_seconds (now2 - thirty_days_ago)) ;;
  let random_time := thirty_days_ago + timedelta 0 offset in
  let timestamp := int_timestamp_ms random_time in
  reactions <- reactions_comprehension ;;
  id <- nanoid 10 ;;
  ret (PDict [("id", PStr id);
              ("displayName", PStr full_name);
              ("handle", PStr handle);
              ("content", content);
              ("timestamp", PInt timestamp);
              ("reactions", PDict reactions)]).

Definition tweet_line (tweet : pyval) : string :=
  json_dumps false tweet +:+ LF.

Definition generate_tweets (num_tweets : Z) : M unit :=
  comments <- load_comments "comments.ndjson" ;;
  match comments with
  | [] => raise (ValueError "No valid comments found in 'comments.ndjson'")
  | _ :: _ =>
      with_open "tweets.ndjson" (open_write "tweets.ndjson")
        (fun f => for_each (py_range num_tweets)
                    (fun _ (_ : unit) =>
                       tweet <- make_tweet comments ;;
                       file_write f (tweet_line tweet))
                    tt) ;;;
      print ("✅ Generated " +:+ str_of_int num_tweets +:+
             " tweets with real comments into 'tweets.ndjson'")
  end.

Definition main : M unit := generate_tweets NUM_MESSAGES.

End Program.

(** ** What the specification says a line contributes *)

Section Loader_spec.

Variable json_loads : string -> option pyval.
Variable py_str : pyval -> string.
Variable str_strip : string -> string.

(** A line parses when [json.loads] accepts what is left of it after
    [strip]. *)
Definition parses (line : string) : bool :=
  match json_loads (str_strip line) with
  | Some _ => true
  | None => false
  end.

(** The content a line stands for, following the words of the
    specification: nothing for a line that does not parse, the value under
    [comment] for an object that has that key, the string form of the
    whole value otherwise. *)
Definition line_content (line : string) : option pyval :=
  match json_loads (str_strip line) with
  | None => None
  | Some data =>
      match data with
      | PDict d =>
          match dict_get "comment" d with
          | Some v => Some v
          | None => Some (PStr (py_str data))
          end
      | _ => Some (PStr (py_str data))
      end
  end.

End Loader_spec.

(** ** Reasoning about runs *)

(** [m] run in [w] returns, and the value and the world it ends in satisfy
    [P]. *)
Definition yields {A} (m : M A) (w : World) (P : A -> World -> Prop) : Prop :=
  exists a w', m w = (Ok a, w') /\ P a w'.

(** From [w] to [w'] only [n] outcomes of the oracle were consumed and time
    passed: no file and no console event. *)
Definition moved (n : nat) (w w' : World) : Prop :=
  files w' = files w /\ trace w' = trace w /\ oracle w' = oracle w /\
  asked w' = (asked w + n)%nat /\ now_us w <= now_us w'.

(** The symbols an identifier may hold: letters, digits, hyphen and
    underscore. *)
Definition url_safe (c : ascii) : bool :=
  let n := nat_of_ascii c in
  ((48 <=? n) && (n <=? 57) || (65 <=? n) && (n <=? 90) ||
   (97 <=? n) && (n <=? 122) || (n =? 45) || (n =? 95))%nat.

(** [tweet[k]] for a tweet object. *)
Definition field (k : string) (tweet : pyval) : option pyval :=
  match tweet with
  | PDict d => dict_get k d
  | _ => None
  end.

(** A reaction count: an [int] of [0, 20]. *)
Definition reaction_count (v : pyval) : Prop :=
  exists n, v = PInt n /\ 0 <= n <= 20.

(** What one pass of the loop of [generate_tweets] builds out of the
    outcomes it consumes. *)
Definition made_tweet (fake_name fake_user_name : N -> string)
    (comments : list pyval) (w : World) (tweet : pyval) (w' : World) : Prop :=
  exists nm un content now1 now2 offset reactions id,
    tweet = PDict [("id", PStr id);
                   ("displayName", PStr (fake_name nm));
                   ("handle", PStr ("@" +:+ fake_user_name un));
                   ("content", content);
                   ("timestamp",
                    PInt (int_timestamp_ms
                            (now1 - timedelta 30 0 + timedelta 0 offset)));
                   ("reactions", PDict reactions)] /\
    In content comments /\
    now_us w <= now1 /\ now1 <= now2 /\ now2 <= now_us w' /\
    0 <= offset <= int_total_seconds (now2 - (now1 - timedelta 30 0)) /\
    dict_keys reactions = REACTION_EMOJIS /\
    Forall reaction_count (dict_values reactions) /\
    String.length id = 10%nat /\
    forallb url_safe (list_ascii_of_string id) = true /\
    moved 26 w w'.

(** The text of a file made of the given lines. *)
Definition text_of_lines (ls : list string) : string :=
  fold_right String.append "" ls.


(** Some pass of the loop built [tweet] from [comments]. *)
Definition generated (fake_name fake_user_name : N -> string)
    (comments : list pyval) (tweet : pyval) : Prop :=
  exists w0 w1, made_tweet fake_name fake_user_name comments w0 tweet w1.

(** ** A sample run

    Stand-ins for the library functions, enough to run the program on small
    inputs; the theorems below hold for every choice of them. *)

Module Sample.

Definition quote : string := String "034"%char "".
Definition backslash : string := String "092"%char "".

Definition is_space (c : ascii) : bool :=
  let n := nat_of_ascii c in
  ((9 <=? n) && (n <=? 13) || (28 <=? n) && (n <=? 32))%nat.

Fixpoint lstrip (s : string) : string :=
  match s with
  | String c s' => if is_space c then lstrip s' else s
  | EmptyString => s
  end.

Fixpoint rstrip (s : string) : string :=
  match s with
  | String c s' =>
      match rstrip s' with
      | EmptyString => if is_space c then "" else String c ""
      | r => String c r
      end
  | EmptyString => s
  end.

(** [s.strip()], for ASCII white space. *)
Definition str_strip (s : string) : string := rstrip (lstrip s).

Definition hello_line : string :=
  "{" +:+ quote +:+ "comment" +:+ quote +:+ ": "
      +:+ quote +:+ "hello 🎉" +:+ quote +:+ "}".
Definition text_line : string :=
  "{" +:+ quote +:+ "text" +:+ quote +:+ ": "
      +:+ quote +:+ "hi" +:+ quote +:+ "}".

(** [json.loads] on the lines the sample files hold; every other text
    stands for one that is not JSON. *)
Definition json_loads (s : string) : option pyval :=
  if String.eqb s hello_line then Some (PDict [("comment", PStr "hello 🎉")])
  else if String.eqb s text_line then Some (PDict [("text", PStr "hi")])
  else if String.eqb s "42" then Some (PInt 42)
  else if String.eqb s "[1, 2]" then Some (PList [PInt 1; PInt 2])
  else None.

Definition hex_digit (n : N) : ascii :=
  match String.get (N.to_nat n) "0123456789abcdef" with
  | Some c => c
  | None => "0"%char
  end.

(** The escape [\uXXXX] of a code unit. *)
Definition u_escape (n : N) : string :=
  backslash +:+ "u" +:+
  String (hex_digit (N.land (N.shiftr n 12) 15))
    (String (hex_digit (N.land (N.shiftr n 8) 15))
       (String (hex_digit (N.land (N.shiftr n 4) 15))
          (String (hex_digit (N.land n 15)) ""))).

(** The escape of a code point, as a surrogate pair beyond the basic
    plane. *)
Definition u_escape_point (p : N) : string :=
  if (p <? 65536)%N then u_escape p
  else let v := (p - 65536)%N in
       u_escape (55296 + N.shiftr v 10) +:+ u_escape (56320 + N.land v 1023).

Definition cont (c : ascii) : N := N.land (N_of_ascii c) 63.

(** A string between double quotes, as [json.dumps] escapes it: quote,
    backslash and control characters always, the characters outside ASCII
    when [ensure_ascii] holds. *)
Fixpoint escape (ensure_ascii : bool) (s : string) : string :=
  match s with
  | EmptyString => ""
  | String c s' =>
      let n := N_of_ascii c in
      if (n =? 34)%N then backslash +:+ quote +:+ escape ensure_ascii s'
      else if (n =? 92)%N then backslash +:+ backslash +:+ escape ensure_ascii s'
      else if (n =? 10)%N then backslash +:+ "n" +:+ escape ensure_ascii s'
      else if (n =? 13)%N then backslash +:+ "r" +:+ escape ensure_ascii s'
      else if (n =? 9)%N then backslash +:+ "t" +:+ escape ensure_ascii s'
      else if (n =? 8)%N then backslash +:+ "b" +:+ escape ensure_ascii s'
      else if (n =? 12)%N then backslash +:+ "f" +:+ escape ensure_ascii s'
      else if (n <? 32)%N then u_escape n +:+ escape ensure_ascii s'
      else if (n <? 128)%N || negb ensure_ascii
           then String c (escape ensure_ascii s')
      else
        match s' with
        | String c1 s1 =>
            if (n <? 224)%N then
              u_escape_point (N.land n 31 * 64 + cont c1)
              +:+ escape ensure_ascii s1
            else
              match s1 with
              | String c2 s2 =>
                  if (n <? 240)%N then
                    u_escape_point ((N.land n 15 * 64 + cont c1) * 64 + cont c2)
                    +:+ escape ensure_ascii s2
                  else
                    match s2 with
                    | String c3 s3 =>
                        u_escape_point
                          (((N.land n 7 * 64 + cont c1) * 64 + cont c2) * 64
                           + cont c3)
                        +:+ escape ensure_ascii s3
                    | EmptyString => ""
                    end
              | EmptyString => ""
              end
        | EmptyString => ""
        end
  end.

Definition encode_str (ensure_ascii : bool) (s : string) : string :=
  quote +:+ escape ensure_ascii s +:+ quote.

Definition join (sep : string) (parts : list string) : string :=
  match parts with
  | [] => ""
  | p :: ps => fold_left (fun acc q => acc +:+ sep +:+ q) ps p
  end.

(** [json.dumps] with its default separators.  The sample holds no float;
    their digits are not computed. *)
Fixpoint json_dumps (ensure_ascii : bool) (v : pyval) : string :=
  match v with
  | PNone => "null"
  | PBool true => "true"
  | PBool false => "false"
  | PInt z => str_of_int z
  | PFloat _ => "0.0"
  | PStr s => encode_str ensure_ascii s
  | PList l => "[" +:+ join ", " (map (json_dumps ensure_ascii) l) +:+ "]"
  | PDict d =>
      "{" +:+ join ", "
                (map (fun kv => encode_str ensure_ascii (fst kv) +:+ ": "
                                +:+ json_dumps ensure_ascii (snd kv)) d)
          +:+ "}"
  end.

(** [repr] and [str]: a string in single quotes inside a container, bare
    at the top. *)
Fixpoint py_repr (v : pyval) : string :=
  match v with
  | PNone => "None"
  | PBool true => "True"
  | PBool false => "False"
  | PInt z => str_of_int z
  | PFloat _ => "0.0"
  | PStr s => "'" +:+ s +:+ "'"
  | PList l => "[" +:+ join ", " (map py_repr l) +:+ "]"
  | PDict d =>
      "{" +:+ join ", "
                (map (fun kv => "'" +:+ fst kv +:+ "': " +:+ py_repr (snd kv)) d)
          +:+ "}"
  end.

Definition py_str (v : pyval) : string :=
  match v with
  | PStr s => s
  | _ => py_repr v
  end.

Definition fake_name (n : N) : string :=
  nth (N.to_nat n mod 3)%nat ["Ada Lovelace"; "Alan Turing"; "Grace Hopper"] "".
Definition fake_user_name (n : N) : string :=
  nth (N.to_nat n mod 3)%nat ["ada"; "alan42"; "ghopper"] "".

Definition comments_text : string :=
  hello_line +:+ LF +:+ "not json" +:+ LF +:+ text_line +:+ LF
  +:+ "42" +:+ String "013"%char LF.

(** A world whose input file has four lines, one of them not JSON, read
    on 2 January 2024. *)
Definition world : World :=
  mkWorld {[ "comments.ndjson" := comments_text ]} []
          (fun i => N.of_nat (7 * i + 3)) 0 1704153600000000.

(** A world whose input file holds no JSON at all. *)
Definition barren : World :=
  mkWorld {[ "comments.ndjson" := "not json" +:+ LF +:+ LF ]} []
          (fun i => N.of_nat i) 0 1704153600000000.

Definition run (n : Z) : M unit :=
  generate_tweets json_loads json_dumps py_str str_strip
                  fake_name fake_user_name n.

End Sample.

Module SampleRun.

Definition comments : list pyval :=
  [PStr "hello 🎉"; PStr "{'text': 'hi'}"; PStr "42"].

Definition loaded (w : World) : World :=
  log (EClose "comments.ndjson") (log (EOpen "comments.ndjson" "r") w).

(** The first pass of the loop on the sample world. *)
Definition first_pass : result pyval * World :=
  make_tweet Sample.fake_name Sample.fake_user_name comments Sample.world.

Definition first_tweet : pyval :=
  match fst first_pass with
  | Ok t => t
  | Raise _ => PNone
  end.

Definition after_first : World := snd first_pass.

(** A world where five milliseconds pass between the two readings of the
    clock of the first pass, and whose random draws are all zero. *)
Definition slow_clock : World :=
  mkWorld ∅ [] (fun i => if (i =? 4)%nat then 5000%N else 0%N) 0
          1704153600000000.


End SampleRun.

(** The second pass of the loop on the sample world. *)
Module SampleNext.





End SampleNext.

(** ** File handles along a trace *)

(** The handles left when the first one on [path] is given back; [None]
    when none is held. *)
Fixpoint release (path : string) (opened : list (string * string))
  : option (list (string * string)) :=
  match opened with
  | [] => None
  | (p, m) :: rest =>
      if String.eqb p path then Some rest
      else option_map (cons (p, m)) (release path rest)
  end.

Definition open_for_writing (path : string) (opened : list (string * string))
  : bool :=
  existsb (fun h => String.eqb (fst h) path && String.eqb (snd h) "w") opened.

(** The handles, path and mode, still held after the events, from the
    handles [opened]; [None] when an event writes to a file that is not open
    for writing or closes a file that is not open. *)
Fixpoint still_open (opened : list (string * string)) (evs : list event)
  : option (list (string * string)) :=
  match evs with
  | [] => Some opened
  | EOpen p m :: evs' => still_open ((p, m) :: opened) evs'
  | EWrite p _ :: evs' =>
      if open_for_writing p opened then still_open opened evs' else None
  | EClose p :: evs' =>
      match release p opened with
      | Some rest => still_open rest evs'
      | None => None
      end
  | EPrint _ :: evs' => still_open opened evs'
  end.


(** ** Basic facts *)

Lemma dict_contains_get k d :
  dict_contains k d = true <-> exists v, dict_get k d = Some v.
Proof.
  induction d as [|[k' v'] d IH]; simpl.
  - split; [discriminate | intros [v Hv]; discriminate].
  - destruct (String.eqb k k'); [split; eauto | exact IH].
Qed.

Lemma dict_contains_false k d :
  dict_contains k d = false <-> dict_get k d = None.
Proof.
  induction d as [|[k' v'] d IH]; simpl; [tauto|].
  destruct (String.eqb k k'); [split; discriminate | exact IH].
Qed.

Lemma bind_Ok {A B} (m : M A) (k : A -> M B) w a w1 :
  m w = (Ok a, w1) -> bind m k w = k a w1.
Proof. unfold bind. intros ->. reflexivity. Qed.

Lemma bind_Raise' {A B} (m : M A) (k : A -> M B) w e w1 :
  m w = (Raise e, w1) -> bind m k w = (Raise e, w1).
Proof. unfold bind. intros ->. reflexivity. Qed.

Section Loader_facts.

Variable json_loads : string -> option pyval.
Variable py_str : pyval -> string.
Variable str_strip : string -> string.

Local Abbreviation load_line := (load_comments_line json_loads py_str str_strip).
Local Abbreviation content := (line_content json_loads py_str str_strip).

(** One pass of the loop appends the content of the line, if it has one,
    and touches nothing else. *)
Lemma load_comments_line_content line comments w :
  load_line line comments w
  = (Ok (comments ++ option_list (content line))%list, w).
Proof.
  unfold load_comments_line, try_except_JSONDecodeError, line_content,
    json_loads_m, bind.
  destruct (json_loads (str_strip line)) as [data|]; simpl.
  - destruct data as [| | | | |l|d]; simpl; try reflexivity.
    destruct (dict_contains "comment" d) eqn:Hin.
    + apply dict_contains_get in Hin as [v Hv].
      unfold ret. simpl. rewrite Hv. reflexivity.
    + apply dict_contains_false in Hin. rewrite Hin. reflexivity.
  - unfold ret. rewrite app_nil_r. reflexivity.
Qed.

Lemma load_loop lines : forall comments w,
  for_each lines load_line comments w
  = (Ok (comments ++ omap content lines)%list, w).
Proof.
  induction lines as [|line lines IH]; intros comments w; simpl.
  - unfold ret. rewrite app_nil_r. reflexivity.
  - erewrite bind_Ok by apply load_comments_line_content.
    rewrite IH, <- app_assoc. repeat f_equal.
    destruct (content line); reflexivity.
Qed.

Lemma content_parses line :
  parses json_loads str_strip line = true <-> exists v, content line = Some v.
Proof.
  unfold parses, line_content.
  destruct (json_loads (str_strip line)) as [data|].
  - split; [intros _ | reflexivity].
    destruct data as [| | | | |l|d]; eauto.
    destruct (dict_get "comment" d); eauto.
  - split; [discriminate | intros [v Hv]; discriminate].
Qed.


Lemma load_comments_found path text w :
  files w !! path = Some text ->
  load_comments json_loads py_str str_strip path w
  = (Ok (omap content (text_lines text)),
     log (EClose path) (log (EOpen path "r") w)).
Proof.
  intros Hf. unfold load_comments, with_open, open_read. rewrite Hf.
  rewrite load_loop. reflexivity.
Qed.

Lemma load_comments_missing path w :
  files w !! path = None ->
  load_comments json_loads py_str str_strip path w
  = (Raise (FileNotFoundError path), w).
Proof.
  intros Hf. unfold load_comments, with_open, open_read. rewrite Hf.
  reflexivity.
Qed.

End Loader_facts.

Lemma yields_bind {A B} (m : M A) (k : A -> M B) w P Q :
  yields m w P ->
  (forall a w1, P a w1 -> yields (k a) w1 Q) ->
  yields (bind m k) w Q.
Proof.
  intros (a & w1 & Hm & HP) Hk. unfold yields.
  rewrite (bind_Ok _ _ _ _ _ Hm). exact (Hk a w1 HP).
Qed.

Lemma yields_ret {A} (a : A) w (P : A -> World -> Prop) :
  P a w -> yields (ret a) w P.
Proof. intros HP. exists a, w. split; [reflexivity | exact HP]. Qed.

Lemma yields_unique {A} (m : M A) w P a w' :
  yields m w P -> m w = (Ok a, w') -> P a w'.
Proof. intros (a0 & w0 & Hm & HP) Hr. congruence. Qed.

Lemma moved_refl w : moved 0 w w.
Proof. unfold moved. rewrite Nat.add_0_r. repeat split; lia. Qed.

Lemma moved_trans n m w w1 w2 :
  moved n w w1 -> moved m w1 w2 -> moved (n + m) w w2.
Proof.
  unfold moved. intros (F1 & T1 & O1 & A1 & C1) (F2 & T2 & O2 & A2 & C2).
  repeat split; try congruence; lia.
Qed.

Lemma draw_yields w :
  yields draw w (fun v w' => v = oracle w (asked w) /\ moved 1 w w').
Proof.
  eexists _, _. split; [reflexivity|]. split; [reflexivity|].
  unfold moved. simpl. repeat split; lia.
Qed.

Lemma randint_yields a b w :
  a <= b ->
  yields (randint a b) w (fun v w' => a <= v <= b /\ moved 1 w w').
Proof.
  intros Hab. unfold randint.
  destruct (Z.ltb_spec b a) as [Hlt|_]; [lia|].
  eapply yields_bind; [apply draw_yields|]. intros n w1 [_ Hm].
  apply yields_ret. split; [|exact Hm].
  pose proof (Z.mod_pos_bound (Z.of_N n) (b - a + 1)). lia.
Qed.

Lemma randint_empty a b w :
  b < a -> randint a b w = (Raise (ValueError "empty range for randrange()"), w).
Proof.
  intros Hlt. unfold randint. destruct (Z.ltb_spec b a); [reflexivity | lia].
Qed.

Lemma random_choice_yields {A} (seq : list A) w :
  seq <> [] ->
  yields (random_choice seq) w (fun x w' => In x seq /\ moved 1 w w').
Proof.
  intros Hne. destruct seq as [|x seq]; [contradiction|].
  unfold random_choice.
  eapply yields_bind; [apply draw_yields|]. intros n w1 [_ Hm].
  apply yields_ret. split; [|exact Hm].
  apply nth_In. apply Nat.mod_upper_bound. discriminate.
Qed.

Lemma datetime_now_yields w :
  yields datetime_now w (fun t w' => t = now_us w' /\ moved 1 w w').
Proof.
  unfold datetime_now.
  eapply yields_bind; [apply draw_yields|]. intros d w1 [_ Hm].
  eexists _, _. split; [reflexivity|]. split; [reflexivity|].
  destruct Hm as (F & T & O & A & C). unfold moved. simpl.
  repeat split; try assumption. lia.
Qed.

Lemma nanoid_symbol_url_safe n : url_safe (nanoid_symbol n) = true.
Proof.
  unfold nanoid_symbol.
  assert (Hlt : (N.to_nat (N.land n 63) < 64)%nat).
  { change 63%N with (N.ones 6). rewrite N.land_ones.
    pose proof (N.mod_upper_bound n (2 ^ 6)). change (2 ^ 6)%N with 64%N in *.
    lia. }
  assert (Hall : forallb (fun i =>
            match String.get i nanoid_alphabet with
            | Some c => url_safe c
            | None => true
            end) (seq 0 64) = true) by (vm_compute; reflexivity).
  rewrite forallb_forall in Hall.
  specialize (Hall (N.to_nat (N.land n 63))).
  destruct (String.get (N.to_nat (N.land n 63)) nanoid_alphabet).
  - apply Hall. apply in_seq. lia.
  - reflexivity.
Qed.

Lemma nanoid_symbols_yields size : forall w,
  yields (nanoid_symbols size) w (fun s w' =>
    String.length s = size /\
    forallb url_safe (list_ascii_of_string s) = true /\
    moved size w w').
Proof.
  induction size as [|k IH]; intros w; simpl.
  - apply yields_ret. split; [reflexivity|]. split; [reflexivity|].
    apply moved_refl.
  - eapply yields_bind; [apply draw_yields|]. intros n w1 [_ Hm1].
    eapply yields_bind; [apply IH|]. intros rest w2 (Hlen & Hsafe & Hm2).
    apply yields_ret. simpl. rewrite Hlen, Hsafe, nanoid_symbol_url_safe.
    split; [reflexivity|]. split; [reflexivity|].
    exact (moved_trans _ _ _ _ _ Hm1 Hm2).
Qed.

Lemma dict_set_fresh k v d :
  ~ In k (dict_keys d) -> dict_set k v d = (d ++ [(k, v)])%list.
Proof.
  induction d as [|[k' v'] d IH]; simpl; intros Hk; [reflexivity|].
  destruct (String.eqb_spec k k') as [->|_]; [tauto|].
  rewrite IH by tauto. reflexivity.
Qed.

Lemma reactions_loop emojis : forall acc w,
  NoDup (dict_keys acc ++ emojis) ->
  Forall reaction_count (dict_values acc) ->
  yields (for_each emojis
            (fun emoji d => n <- randint 0 20 ;; ret (dict_set emoji (PInt n) d))
            acc) w
    (fun r w' => dict_keys r = (dict_keys acc ++ emojis)%list /\
                 Forall reaction_count (dict_values r) /\
                 moved (length emojis) w w').
Proof.
  induction emojis as [|e emojis IH]; intros acc w Hnd Hacc; simpl.
  - apply yields_ret. rewrite app_nil_r.
    split; [reflexivity|]. split; [exact Hacc | apply moved_refl].
  - apply yields_bind with
      (P := fun d' w1 => (exists n, d' = dict_set e (PInt n) acc /\ 0 <= n <= 20)
                         /\ moved 1 w w1).
    { eapply yields_bind; [apply (randint_yields 0 20); lia|].
      intros n w1 [Hn Hm]. apply yields_ret. eauto. }
    intros d' w1 [(n & -> & Hn) Hm1].
    assert (Hfresh : ~ In e (dict_keys acc)).
    { apply NoDup_app in Hnd as (_ & Hdis & _). intros Hin.
      apply (Hdis e); [apply list_elem_of_In, Hin | left]. }
    rewrite (dict_set_fresh _ _ _ Hfresh).
    destruct (IH (acc ++ [(e, PInt n)])%list w1) as (r & w2 & Hrun & Hk & Hv & Hm2).
    { unfold dict_keys. rewrite map_app, <- app_assoc. exact Hnd. }
    { unfold dict_values. rewrite map_app. apply Forall_app. split; [exact Hacc|].
      repeat constructor. exists n. eauto. }
    exists r, w2. split; [exact Hrun|].
    split; [|split; [exact Hv | exact (moved_trans _ _ _ _ _ Hm1 Hm2)]].
    rewrite Hk. unfold dict_keys. rewrite map_app, <- app_assoc. reflexivity.
Qed.

Lemma REACTION_EMOJIS_NoDup : NoDup REACTION_EMOJIS.
Proof. apply (bool_decide_unpack _). vm_compute. exact I. Qed.

Lemma reactions_comprehension_yields w :
  yields reactions_comprehension w
    (fun r w' => dict_keys r = REACTION_EMOJIS /\
                 Forall reaction_count (dict_values r) /\
                 moved 10 w w').
Proof.
  apply (reactions_loop REACTION_EMOJIS [] w).
  - exact REACTION_EMOJIS_NoDup.
  - constructor.
Qed.

Lemma append_assoc_s (a b c : string) : (a +:+ b) +:+ c = a +:+ (b +:+ c).
Proof.
  induction a as [|x a IH]; [reflexivity|].
  change (String x ((a +:+ b) +:+ c) = String x (a +:+ (b +:+ c))).
  rewrite IH. reflexivity.
Qed.

Lemma append_nil_r_s (a : string) : a +:+ "" = a.
Proof.
  induction a as [|x a IH]; [reflexivity|].
  change (String x (a +:+ "") = String x a). rewrite IH. reflexivity.
Qed.



Lemma thirty_days_span now1 now2 :
  now1 <= now2 -> 0 <= int_total_seconds (now2 - (now1 - timedelta 30 0)).
Proof.
  intros H. unfold int_total_seconds, timedelta.
  apply Z.quot_pos; lia.
Qed.

Section Generator_facts.

Variable json_loads : string -> option pyval.
Variable json_dumps : bool -> pyval -> string.
Variable py_str : pyval -> string.
Variable str_strip : string -> string.
Variable fake_name : N -> string.
Variable fake_user_name : N -> string.

Local Abbreviation tweet_of := (make_tweet fake_name fake_user_name).
Local Abbreviation made := (made_tweet fake_name fake_user_name).
Local Abbreviation line_of := (tweet_line json_dumps).

Lemma make_tweet_yields comments w :
  comments <> [] ->
  yields (tweet_of comments) w (made comments w).
Proof.
  intros Hne. unfold make_tweet.
  eapply yields_bind; [apply draw_yields|]. intros nm w1 [_ M1].
  eapply yields_bind; [apply draw_yields|]. intros un w2 [_ M2].
  eapply yields_bind; [apply (random_choice_yields comments), Hne|].
  intros content w3 [Hin M3].
  eapply yields_bind; [apply datetime_now_yields|]. intros now1 w4 [H1 M4].
  eapply yields_bind; [apply datetime_now_yields|]. intros now2 w5 [H2 M5].
  assert (H12 : now1 <= now2) by (subst; apply M5).
  eapply yields_bind;
    [apply randint_yields, thirty_days_span, H12|].
  intros offset w6 [Hoff M6].
  eapply yields_bind; [apply reactions_comprehension_yields|].
  intros reactions w7 (Hk & Hv & M7).
  eapply yields_bind; [apply (nanoid_symbols_yields 10)|].
  intros id w8 (Hlen & Hsafe & M8).
  apply yields_ret.
  pose proof (moved_trans _ _ _ _ _ M1 M2) as T2.
  pose proof (moved_trans _ _ _ _ _ T2 M3) as T3.
  pose proof (moved_trans _ _ _ _ _ T3 M4) as T4.
  pose proof (moved_trans _ _ _ _ _ M6 (moved_trans _ _ _ _ _ M7 M8)) as T68.
  pose proof (moved_trans _ _ _ _ _ T4 (moved_trans _ _ _ _ _ M5 T68)) as T.
  exists nm, un, content, now1, now2, offset, reactions, id.
  split; [reflexivity|]. split; [exact Hin|].
  split; [subst now1; apply T4|]. split; [exact H12|].
  split; [subst now2; apply T68|].
  repeat (split; [assumption|]). exact T.
Qed.

Lemma make_tweet_made comments w tweet w' :
  tweet_of comments w = (Ok tweet, w') -> made comments w tweet w'.
Proof.
  intros Hrun. destruct comments as [|c comments].
  - unfold make_tweet, bind, draw, random_choice, raise in Hrun.
    simpl in Hrun. discriminate.
  - exact (yields_unique _ _ _ _ _ (make_tweet_yields (c :: comments) w
             ltac:(discriminate)) Hrun).
Qed.

(** The loop of [generate_tweets] over any [xs], on an output file that
    holds [text0]: one tweet is made and one line written for each element
    of [xs]. *)
Lemma write_loop comments f xs : forall w text0,
  comments <> [] ->
  files w !! f = Some text0 ->
  exists tweets w',
    for_each xs
      (fun (_ : Z) (_ : unit) =>
         tweet <- tweet_of comments ;; file_write f (line_of tweet))
      tt w = (Ok tt, w') /\
    length tweets = length xs /\
    Forall (generated fake_name fake_user_name comments) tweets /\
    files w' = <[f := text0 +:+ text_of_lines (map line_of tweets)]> (files w) /\
    trace w' = (trace w ++ map (fun t => EWrite f (line_of t)) tweets)%list /\
    oracle w' = oracle w /\
    asked w' = (asked w + 26 * length xs)%nat /\
    now_us w <= now_us w'.
Proof.
  induction xs as [|x xs IH]; intros w text0 Hne Hf.
  - exists [], w. simpl. rewrite append_nil_r_s, app_nil_r, Nat.add_0_r.
    rewrite (insert_id _ _ _ Hf).
    repeat split; first [reflexivity | constructor].
  - destruct (make_tweet_yields comments w Hne) as (t & w1 & Ht & Hmade).
    pose proof Hmade as Hm.
    destruct Hm as (? & ? & ? & ? & ? & ? & ? & ? & _ & _ & _ & _ & _ & _ & _ & _ & _ & _
                    & F1 & T1 & O1 & A1 & C1).
    set (w2 := log (EWrite f (line_of t))
                 (set_file f (default "" (files w1 !! f) +:+ line_of t) w1)).
    assert (Hf2 : files w2 !! f = Some (text0 +:+ line_of t)).
    { subst w2. simpl. rewrite F1, Hf. simpl. apply lookup_insert_eq. }
    destruct (IH w2 _ Hne Hf2)
      as (ts & w' & Hrun & Hlen & Hgen & F & T & O & A & C).
    exists (t :: ts), w'. split.
    { simpl. erewrite bind_Ok; [exact Hrun|].
      erewrite bind_Ok by exact Ht. reflexivity. }
    split; [simpl; congruence|].
    split; [constructor; [exists w, w1; exact Hmade | exact Hgen]|].
    split.
    { rewrite F. subst w2. simpl. rewrite F1, Hf. simpl.
      rewrite insert_insert_eq, append_assoc_s. reflexivity. }
    split.
    { rewrite T. subst w2. simpl. rewrite T1, <- app_assoc. reflexivity. }
    split; [rewrite O; subst w2; simpl; exact O1|].
    split; [rewrite A; subst w2; simpl; rewrite A1; lia|].
    subst w2. simpl in C. lia.
Qed.

End Generator_facts.

Section Run_facts.

Variable json_loads : string -> option pyval.
Variable json_dumps : bool -> pyval -> string.
Variable py_str : pyval -> string.
Variable str_strip : string -> string.
Variable fake_name : N -> string.
Variable fake_user_name : N -> string.

Local Abbreviation load := (load_comments json_loads py_str str_strip).
Local Abbreviation run :=
  (generate_tweets json_loads json_dumps py_str str_strip
                   fake_name fake_user_name).
Local Abbreviation line_of := (tweet_line json_dumps).

(** Loading reads: it leaves the files, the oracle and the clock as they
    are, and when it returns it has opened and closed the input file. *)
Lemma load_comments_reads path w comments w1 :
  load path w = (Ok comments, w1) ->
  files w1 = files w /\
  trace w1 = (trace w ++ [EOpen path "r"; EClose path])%list /\
  oracle w1 = oracle w /\ asked w1 = asked w /\ now_us w1 = now_us w.
Proof.
  intros Hload. destruct (files w !! path) as [text|] eqn:Hf.
  - rewrite (load_comments_found _ _ _ _ _ _ Hf) in Hload.
    injection Hload as _ <-. simpl. rewrite <- app_assoc.
    repeat split; reflexivity.
  - rewrite (load_comments_missing _ _ _ _ _ Hf) in Hload. discriminate.
Qed.

Lemma py_range_length n : length (py_range n) = Z.to_nat n.
Proof. unfold py_range. rewrite length_map, length_seq. reflexivity. Qed.

(** A whole run on an input that yields at least one comment. *)
Lemma generate_tweets_run num_tweets w comments w1 :
  load "comments.ndjson" w = (Ok comments, w1) ->
  comments <> [] ->
  exists tweets w',
    run num_tweets w = (Ok tt, w') /\
    length tweets = Z.to_nat num_tweets /\
    Forall (generated fake_name fake_user_name comments) tweets /\
    files w'
    = <["tweets.ndjson" := text_of_lines (map line_of tweets)]> (files w1) /\
    trace w'
    = (trace w1 ++ [EOpen "tweets.ndjson" "w"]
         ++ map (fun t => EWrite "tweets.ndjson" (line_of t)) tweets
         ++ [EClose "tweets.ndjson";
             EPrint ("✅ Generated " +:+ str_of_int num_tweets +:+
                     " tweets with real comments into 'tweets.ndjson'")])%list /\
    oracle w' = oracle w1 /\
    asked w' = (asked w1 + 26 * Z.to_nat num_tweets)%nat /\
    now_us w1 <= now_us w'.
Proof.
  intros Hload Hne.
  set (w2 := log (EOpen "tweets.ndjson" "w") (set_file "tweets.ndjson" "" w1)).
  assert (Hf2 : files w2 !! "tweets.ndjson" = Some "").
  { subst w2. simpl. apply lookup_insert_eq. }
  destruct (write_loop json_dumps fake_name fake_user_name comments
              "tweets.ndjson" (py_range num_tweets) w2 "" Hne Hf2)
    as (tweets & w3 & Hrun & Hlen & Hgen & F & T & O & A & C).
  rewrite py_range_length in Hlen, A.
  exists tweets, (log (EPrint ("✅ Generated " +:+ str_of_int num_tweets +:+
                     " tweets with real comments into 'tweets.ndjson'"))
                    (log (EClose "tweets.ndjson") w3)).
  split.
  { unfold generate_tweets. erewrite bind_Ok by exact Hload.
    destruct comments as [|c comments]; [contradiction|].
    erewrite bind_Ok; [reflexivity|].
    unfold with_open, open_write. fold w2. rewrite Hrun. reflexivity. }
  split; [exact Hlen|]. split; [exact Hgen|].
  split.
  { simpl. rewrite F. subst w2. simpl. rewrite insert_insert_eq. reflexivity. }
  split.
  { simpl. rewrite T. subst w2. simpl.
    rewrite <- !app_assoc. reflexivity. }
  split; [simpl; rewrite O; reflexivity|].
  split; [simpl; rewrite A; reflexivity|].
  simpl. subst w2. simpl in C. exact C.
Qed.

End Run_facts.


(** ** The claims of the specification *)

Section Claims.

Variable json_loads : string -> option pyval.
Variable json_dumps : bool -> pyval -> string.
Variable py_str : pyval -> string.
Variable str_strip : string -> string.
Variable fake_name : N -> string.
Variable fake_user_name : N -> string.

Local Abbreviation load := (load_comments json_loads py_str str_strip).
Local Abbreviation load_line :=
  (load_comments_line json_loads py_str str_strip).
Local Abbreviation content := (line_content json_loads py_str str_strip).
Local Abbreviation run :=
  (generate_tweets json_loads json_dumps py_str str_strip
                   fake_name fake_user_name).
Local Abbreviation tweet_of := (make_tweet fake_name fake_user_name).

(** C1: when the loaded comment sequence is empty, [generate_tweets]
    raises the [ValueError] that says no valid comment was found, and it
    does so before anything else happens: the only file events are the
    opening and closing of the input file, no file is created or changed,
    no outcome of the random sources is consumed and the clock is not
    read. *)
Theorem empty_input_raises_before_output num_tweets w w1 :
  load "comments.ndjson" w = (Ok [], w1) ->
  run num_tweets w
  = (Raise (ValueError "No valid comments found in 'comments.ndjson'"), w1) /\
  files w1 = files w /\
  trace w1
  = (trace w ++ [EOpen "comments.ndjson" "r"; EClose "comments.ndjson"])%list /\
  asked w1 = asked w /\ now_us w1 = now_us w.
Proof.
  intros Hload. split.
  - unfold generate_tweets. erewrite bind_Ok by exact Hload. reflexivity.
  - destruct (load_comments_reads _ _ _ _ _ _ _ Hload)
      as (F & T & _ & A & C).
    auto.
Qed.


(** C3: the [reactions] of every generated tweet is a mapping whose keys
    are the ten fixed emoji, each once and no other, and whose values are
    integers of [0, 20]. *)
Theorem reactions_fixed_keys_bounded_counts comments w tweet w' :
  tweet_of comments w = (Ok tweet, w') ->
  exists reactions,
    field "reactions" tweet = Some (PDict reactions) /\
    dict_keys reactions = REACTION_EMOJIS /\
    length (dict_keys reactions) = 10%nat /\
    NoDup (dict_keys reactions) /\
    Forall reaction_count (dict_values reactions).
Proof.
  intros Hrun. apply make_tweet_made in Hrun
    as (nm & un & c & now1 & now2 & offset & reactions & id & -> & _ & _ & _
        & _ & _ & Hk & Hv & _).
  exists reactions. split; [reflexivity|]. split; [exact Hk|].
  rewrite Hk. split; [reflexivity|]. split; [|exact Hv].
  exact REACTION_EMOJIS_NoDup.
Qed.


(** C5: the [content] of every generated tweet is an element of the
    loaded comment sequence.  The sequence is the same for every pass of
    the loop, so a comment may be drawn again: from a sequence of one
    comment every pass draws that one. *)
Theorem content_is_a_loaded_comment comments w tweet w' :
  tweet_of comments w = (Ok tweet, w') ->
  exists c,
    field "content" tweet = Some c /\ In c comments /\
    (forall c0, comments = [c0] -> c = c0).
Proof.
  intros Hrun. apply make_tweet_made in Hrun
    as (nm & un & c & now1 & now2 & offset & reactions & id & -> & Hin & _).
  exists c. split; [reflexivity|]. split; [exact Hin|].
  intros c0 ->. destruct Hin as [<-|[]]. reflexivity.
Qed.


(** C7: the [handle] of every generated tweet is the character [@]
    followed by a synthesized username. *)
Theorem handle_starts_with_at comments w tweet w' :
  tweet_of comments w = (Ok tweet, w') ->
  exists n handle,
    field "handle" tweet = Some (PStr handle) /\
    handle = "@" +:+ fake_user_name n /\
    String.get 0 handle = Some "@"%char.
Proof.
  intros Hrun. apply make_tweet_made in Hrun
    as (nm & un & c & now1 & now2 & offset & reactions & id & -> & _).
  exists un, ("@" +:+ fake_user_name un). repeat split; reflexivity.
Qed.

(** C8: the [id] of every generated tweet is a string of exactly ten
    characters, each a letter, a digit, a hyphen or an underscore. *)
Theorem id_is_ten_url_safe_symbols comments w tweet w' :
  tweet_of comments w = (Ok tweet, w') ->
  exists id,
    field "id" tweet = Some (PStr id) /\
    String.length id = 10%nat /\
    forallb url_safe (list_ascii_of_string id) = true.
Proof.
  intros Hrun. apply make_tweet_made in Hrun
    as (nm & un & c & now1 & now2 & offset & reactions & id & -> & _ & _ & _
        & _ & _ & _ & _ & Hlen & Hsafe & _).
  exists id. repeat split; assumption.
Qed.



End Claims.

(** ** The claims on the sample run *)

Lemma empty_input_raises_before_output_witness :
  load_comments Sample.json_loads Sample.py_str Sample.str_strip
    "comments.ndjson" Sample.barren
  = (Ok [], SampleRun.loaded Sample.barren) /\
  Sample.run 5 Sample.barren
  = (Raise (ValueError "No valid comments found in 'comments.ndjson'"),
     SampleRun.loaded Sample.barren) /\
  files (SampleRun.loaded Sample.barren) !! "tweets.ndjson" = None.
Proof.
  assert (H : load_comments Sample.json_loads Sample.py_str Sample.str_strip
                "comments.ndjson" Sample.barren
              = (Ok [], SampleRun.loaded Sample.barren))
    by (vm_compute; reflexivity).
  split; [exact H|]. split.
  - exact (proj1 (empty_input_raises_before_output
                    Sample.json_loads Sample.json_dumps Sample.py_str
                    Sample.str_strip Sample.fake_name Sample.fake_user_name
                    5 Sample.barren _ H)).
  - vm_compute. reflexivity.
Defined.



Lemma reactions_fixed_keys_bounded_counts_witness :
  make_tweet Sample.fake_name Sample.fake_user_name SampleRun.comments
    Sample.world = (Ok SampleRun.first_tweet, SampleRun.after_first) /\
  exists reactions,
    field "reactions" SampleRun.first_tweet = Some (PDict reactions) /\
    dict_keys reactions = REACTION_EMOJIS /\
    length (dict_keys reactions) = 10%nat /\
    NoDup (dict_keys reactions) /\
    Forall reaction_count (dict_values reactions).
Proof.
  assert (H : make_tweet Sample.fake_name Sample.fake_user_name
                SampleRun.comments Sample.world
              = (Ok SampleRun.first_tweet, SampleRun.after_first))
    by (vm_compute; reflexivity).
  split; [exact H|].
  exact (reactions_fixed_keys_bounded_counts
           Sample.fake_name Sample.fake_user_name _ _ _ _ H).
Defined.



Lemma content_is_a_loaded_comment_witness :
  make_tweet Sample.fake_name Sample.fake_user_name SampleRun.comments
    Sample.world = (Ok SampleRun.first_tweet, SampleRun.after_first) /\
  exists c, field "content" SampleRun.first_tweet = Some c /\
            In c SampleRun.comments.
Proof.
  assert (H : make_tweet Sample.fake_name Sample.fake_user_name
                SampleRun.comments Sample.world
              = (Ok SampleRun.first_tweet, SampleRun.after_first))
    by (vm_compute; reflexivity).
  split; [exact H|].
  destruct (content_is_a_loaded_comment
              Sample.fake_name Sample.fake_user_name _ _ _ _ H)
    as (c & Hc & Hin & _).
  exists c. auto.
Defined.


Lemma handle_starts_with_at_witness :
  make_tweet Sample.fake_name Sample.fake_user_name SampleRun.comments
    Sample.world = (Ok SampleRun.first_tweet, SampleRun.after_first) /\
  exists handle,
    field "handle" SampleRun.first_tweet = Some (PStr handle) /\
    String.get 0 handle = Some "@"%char.
Proof.
  assert (H : make_tweet Sample.fake_name Sample.fake_user_name
                SampleRun.comments Sample.world
              = (Ok SampleRun.first_tweet, SampleRun.after_first))
    by (vm_compute; reflexivity).
  split; [exact H|].
  destruct (handle_starts_with_at
              Sample.fake_name Sample.fake_user_name _ _ _ _ H)
    as (n & handle & Hh & _ & Hat).
  exists handle. auto.
Defined.

Lemma id_is_ten_url_safe_symbols_witness :
  make_tweet Sample.fake_name Sample.fake_user_name SampleRun.comments
    Sample.world = (Ok SampleRun.first_tweet, SampleRun.after_first) /\
  exists id,
    field "id" SampleRun.first_tweet = Some (PStr id) /\
    String.length id = 10%nat /\
    forallb url_safe (list_ascii_of_string id) = true.
Proof.
  assert (H : make_tweet Sample.fake_name Sample.fake_user_name
                SampleRun.comments Sample.world
              = (Ok SampleRun.first_tweet, SampleRun.after_first))
    by (vm_compute; reflexivity).
  split; [exact H|].
  exact (id_is_ten_url_safe_symbols
           Sample.fake_name Sample.fake_user_name _ _ _ _ H).
Defined.



(** The sample run of two tweets, read back: two lines, the emoji written
    as they are. *)
Example sample_output_reads_back_two_lines :
  length (text_lines
            (default "" (files (snd (Sample.run 2 Sample.world))
                           !! "tweets.ndjson"))) = 2%nat.
Proof. vm_compute. reflexivity. Qed.

Example sample_dumps_keeps_emoji :
  Sample.json_dumps false (PStr "👍") = Sample.quote +:+ "👍" +:+ Sample.quote /\
  Sample.json_dumps true (PStr "👍")
  = Sample.quote +:+ Sample.backslash +:+ "ud83d" +:+ Sample.backslash
    +:+ "udc4d" +:+ Sample.quote.
Proof. split; vm_compute; reflexivity. Qed.

(** Drawing is with replacement: two passes in a row over one comment both
    take it. *)
Example same_comment_in_two_records :
  let pass := make_tweet Sample.fake_name Sample.fake_user_name [PStr "hi"] in
  match pass Sample.world with
  | (Ok t1, w1) =>
      match pass w1 with
      | (Ok t2, _) => field "content" t1 = Some (PStr "hi") /\
                      field "content" t2 = Some (PStr "hi") /\ t1 <> t2
      | _ => False
      end
  | _ => False
  end.
Proof. vm_compute. repeat split. discriminate. Qed.

(** ** Further properties of the program *)

Section Run_cases.

Variable json_loads : string -> option pyval.
Variable json_dumps : bool -> pyval -> string.
Variable py_str : pyval -> string.
Variable str_strip : string -> string.
Variable fake_name : N -> string.
Variable fake_user_name : N -> string.

Local Abbreviation load := (load_comments json_loads py_str str_strip).
Local Abbreviation content := (line_content json_loads py_str str_strip).
Local Abbreviation run :=
  (generate_tweets json_loads json_dumps py_str str_strip
                   fake_name fake_user_name).
Local Abbreviation line_of := (tweet_line json_dumps).


(** The three ways a run can end, read off the input file. *)
Lemma run_outcome num_tweets w :
  (files w !! "comments.ndjson" = None /\
   run num_tweets w = (Raise (FileNotFoundError "comments.ndjson"), w)) \/
  (exists text,
     files w !! "comments.ndjson" = Some text /\
     omap content (text_lines text) = [] /\
     run num_tweets w
     = (Raise (ValueError "No valid comments found in 'comments.ndjson'"),
        log (EClose "comments.ndjson") (log (EOpen "comments.ndjson" "r") w))) \/
  (exists text tweets w',
     files w !! "comments.ndjson" = Some text /\
     omap content (text_lines text) <> [] /\
     run num_tweets w = (Ok tt, w') /\
     length tweets = Z.to_nat num_tweets /\
     Forall (generated fake_name fake_user_name
               (omap content (text_lines text))) tweets /\
     files w'
     = <["tweets.ndjson" := text_of_lines (map line_of tweets)]> (files w) /\
     trace w'
     = (trace w ++ [EOpen "comments.ndjson" "r"; EClose "comments.ndjson";
                    EOpen "tweets.ndjson" "w"]
          ++ map (fun t => EWrite "tweets.ndjson" (line_of t)) tweets
          ++ [EClose "tweets.ndjson";
              EPrint ("✅ Generated " +:+ str_of_int num_tweets +:+
                      " tweets with real comments into 'tweets.ndjson'")])%list).
Proof.
  destruct (files w !! "comments.ndjson") as [text|] eqn:Hf.
  - right.
    pose proof (load_comments_found json_loads py_str str_strip _ _ _ Hf)
      as Hload.
    destruct (omap content (text_lines text)) as [|c cs] eqn:Hc.
    + left. exists text. split; [reflexivity|]. split; [exact Hc|].
      unfold generate_tweets. erewrite bind_Ok by exact Hload. reflexivity.
    + right.
      destruct (generate_tweets_run json_loads json_dumps py_str str_strip
                  fake_name fake_user_name num_tweets w (c :: cs) _ Hload
                  ltac:(discriminate))
        as (tweets & w' & Hrun & Hlen & Hgen & F & T & _).
      exists text, tweets, w'. rewrite Hc. split; [reflexivity|].
      split; [discriminate|]. split; [exact Hrun|]. split; [exact Hlen|].
      split; [exact Hgen|]. split; [exact F|].
      rewrite T. simpl. rewrite <- !app_assoc. reflexivity.
  - left. split; [reflexivity|].
    unfold generate_tweets.
    erewrite bind_Raise'; [reflexivity|].
    apply load_comments_missing, Hf.
Qed.

Lemma some_content_some_parse (lines : list string) :
  omap content lines <> []
  <-> Exists (fun l => parses json_loads str_strip l = true) lines.
Proof.
  induction lines as [|l lines IH]; simpl.
  - split; [congruence | intros H; inversion H].
  - destruct (content l) as [v|] eqn:Hc.
    + split; [intros _ | discriminate].
      left. apply (content_parses json_loads py_str str_strip). eauto.
    + rewrite IH. split; [intros H; right; exact H|].
      intros H. inversion H as [? ? Hp|]; subst; [|assumption].
      apply (content_parses json_loads py_str str_strip) in Hp as [v Hv].
      congruence.
Qed.

(** A run on an input file with a line that parses. *)
Lemma run_success num_tweets w text :
  files w !! "comments.ndjson" = Some text ->
  Exists (fun l => parses json_loads str_strip l = true) (text_lines text) ->
  exists tweets w',
    run num_tweets w = (Ok tt, w') /\
    length tweets = Z.to_nat num_tweets /\
    Forall (generated fake_name fake_user_name
              (omap content (text_lines text))) tweets /\
    files w'
    = <["tweets.ndjson" := text_of_lines (map line_of tweets)]> (files w) /\
    trace w'
    = (trace w ++ [EOpen "comments.ndjson" "r"; EClose "comments.ndjson";
                   EOpen "tweets.ndjson" "w"]
         ++ map (fun t => EWrite "tweets.ndjson" (line_of t)) tweets
         ++ [EClose "tweets.ndjson";
             EPrint ("✅ Generated " +:+ str_of_int num_tweets +:+
                     " tweets with real comments into 'tweets.ndjson'")])%list.
Proof.
  intros Hf Hex. apply some_content_some_parse in Hex.
  destruct (run_outcome num_tweets w)
    as [[Hn _] | [(t & Ht & Hc & _) | (t & tweets & w' & Ht & _ & H)]].
  - congruence.
  - assert (t = text) by congruence. subst t. contradiction.
  - assert (t = text) by congruence. subst t. exists tweets, w'. exact H.
Qed.

Lemma still_open_writes path (lines : list string) evs opened :
  open_for_writing path opened = true ->
  still_open opened (map (EWrite path) lines ++ evs)%list
  = still_open opened evs.
Proof.
  intros Hopen. induction lines as [|l lines IH]; simpl; [reflexivity|].
  rewrite Hopen. exact IH.
Qed.

End Run_cases.

Section More.

Variable json_loads : string -> option pyval.
Variable json_dumps : bool -> pyval -> string.
Variable py_str : pyval -> string.
Variable str_strip : string -> string.
Variable fake_name : N -> string.
Variable fake_user_name : N -> string.

Local Abbreviation load := (load_comments json_loads py_str str_strip).
Local Abbreviation content := (line_content json_loads py_str str_strip).
Local Abbreviation run :=
  (generate_tweets json_loads json_dumps py_str str_strip
                   fake_name fake_user_name).
Local Abbreviation tweet_of := (make_tweet fake_name fake_user_name).
Local Abbreviation outcome :=
  (run_outcome json_loads json_dumps py_str str_strip
               fake_name fake_user_name).
Local Abbreviation success :=
  (run_success json_loads json_dumps py_str str_strip
               fake_name fake_user_name).

(** X1: when the input file does not exist, [generate_tweets] raises
    [FileNotFoundError] for it and leaves the world as it was: no file is
    created, nothing is printed, nothing is drawn. *)
Theorem missing_input_raises_file_not_found num_tweets w :
  files w !! "comments.ndjson" = None ->
  run num_tweets w = (Raise (FileNotFoundError "comments.ndjson"), w).
Proof.
  intros Hf.
  destruct (outcome num_tweets w)
    as [[_ H] | [(t & Ht & _) | (t & tweets & w' & Ht & _)]];
    [exact H | congruence..].
Qed.



(** X4: however it ends, [generate_tweets] changes no file but
    [tweets.ndjson]; the input file in particular is as it was. *)
Theorem run_changes_only_output_file num_tweets w path :
  path <> "tweets.ndjson" ->
  files (snd (run num_tweets w)) !! path = files w !! path.
Proof.
  intros Hp.
  destruct (outcome num_tweets w)
    as [[_ H] | [(t & _ & _ & H) | (t & tweets & w' & _ & _ & H & _ & _ & F & _)]];
    rewrite H; simpl; [reflexivity..|].
  rewrite F. apply lookup_insert_ne. congruence.
Qed.


(** X6: however it ends, [generate_tweets] writes only to a file it holds
    open for writing, closes only files it holds open, and holds none open
    when it ends. *)
Theorem run_keeps_handle_discipline num_tweets w :
  exists evs,
    trace (snd (run num_tweets w)) = (trace w ++ evs)%list /\
    still_open [] evs = Some [].
Proof.
  destruct (outcome num_tweets w)
    as [[_ H] | [(t & _ & _ & H) | (t & tweets & w' & _ & _ & H & _ & _ & _ & T)]];
    rewrite H; simpl.
  - exists []. rewrite app_nil_r. split; reflexivity.
  - exists [EOpen "comments.ndjson" "r"; EClose "comments.ndjson"].
    split; [|reflexivity]. rewrite <- List.app_assoc. reflexivity.
  - eexists. split; [rewrite T; reflexivity|].
    change (still_open [("tweets.ndjson", "w")]
              (map (fun t => EWrite "tweets.ndjson" (tweet_line json_dumps t))
                   tweets
               ++ [EClose "tweets.ndjson";
                   EPrint ("✅ Generated " +:+ str_of_int num_tweets +:+
                           " tweets with real comments into 'tweets.ndjson'")])%list
            = Some []).
    rewrite <- (map_map (tweet_line json_dumps) (EWrite "tweets.ndjson")).
    rewrite still_open_writes by reflexivity. reflexivity.
Qed.


(** X8: a generated tweet is an object with the six keys [id],
    [displayName], [handle], [content], [timestamp] and [reactions], in this
    order and no other; the display name is a synthesized name, the
    timestamp an integer, the reactions an object. *)
Theorem tweet_has_the_six_fields comments w tweet w' :
  tweet_of comments w = (Ok tweet, w') ->
  exists d,
    tweet = PDict d /\
    dict_keys d
    = ["id"; "displayName"; "handle"; "content"; "timestamp"; "reactions"] /\
    (exists n, dict_get "displayName" d = Some (PStr (fake_name n))) /\
    (exists ts, dict_get "timestamp" d = Some (PInt ts)) /\
    (exists r, dict_get "reactions" d = Some (PDict r)) /\
    (forall k, ~ In k (dict_keys d) -> dict_get k d = None).
Proof using.
  intros Hrun. apply make_tweet_made in Hrun
    as (nm & un & c & now1 & now2 & offset & reactions & id & -> & _).
  eexists. split; [reflexivity|]. split; [reflexivity|].
  split; [exists nm; reflexivity|]. split; [eexists; reflexivity|].
  split; [eexists; reflexivity|].
  intros k Hk. simpl in Hk. simpl.
  repeat match goal with
         | |- context [String.eqb k ?s] =>
             let E := fresh "E" in
             destruct (String.eqb_spec k s) as [E|_];
             [exfalso; apply Hk; rewrite E; auto 10|]
         end.
  reflexivity.
Qed.




End More.

(** ** The further properties on the sample run *)



Lemma missing_input_raises_file_not_found_witness :
  files SampleRun.slow_clock !! "comments.ndjson" = None /\
  generate_tweets Sample.json_loads Sample.json_dumps Sample.py_str
    Sample.str_strip Sample.fake_name Sample.fake_user_name 3
    SampleRun.slow_clock
  = (Raise (FileNotFoundError "comments.ndjson"), SampleRun.slow_clock).
Proof.
  assert (H : files SampleRun.slow_clock !! "comments.ndjson" = None)
    by (vm_compute; reflexivity).
  split; [exact H|].
  exact (missing_input_raises_file_not_found
           Sample.json_loads Sample.json_dumps Sample.py_str Sample.str_strip
           Sample.fake_name Sample.fake_user_name 3 SampleRun.slow_clock H).
Defined.


Lemma run_changes_only_output_file_witness :
  "comments.ndjson" <> "tweets.ndjson" /\
  files (snd (generate_tweets Sample.json_loads Sample.json_dumps
                Sample.py_str Sample.str_strip Sample.fake_name
                Sample.fake_user_name 2 Sample.world)) !! "comments.ndjson"
  = files Sample.world !! "comments.ndjson".
Proof.
  assert (H : "comments.ndjson" <> "tweets.ndjson") by discriminate.
  split; [exact H|].
  exact (run_changes_only_output_file
           Sample.json_loads Sample.json_dumps Sample.py_str Sample.str_strip
           Sample.fake_name Sample.fake_user_name 2 Sample.world
           "comments.ndjson" H).
Defined.



Lemma tweet_has_the_six_fields_witness :
  make_tweet Sample.fake_name Sample.fake_user_name SampleRun.comments
    Sample.world = (Ok SampleRun.first_tweet, SampleRun.after_first) /\
  exists d,
    SampleRun.first_tweet = PDict d /\
    dict_keys d
    = ["id"; "displayName"; "handle"; "content"; "timestamp"; "reactions"].
Proof.
  assert (H : make_tweet Sample.fake_name Sample.fake_user_name
                SampleRun.comments Sample.world
              = (Ok SampleRun.first_tweet, SampleRun.after_first))
    by (vm_compute; reflexivity).
  split; [exact H|].
  destruct (tweet_has_the_six_fields
              Sample.fake_name Sample.fake_user_name _ _ _ _ H)
    as (d & Hd & Hk & _).
  exists d. split; [exact Hd | exact Hk].
Defined.



